(** * PPOCatalog: shape arithmetic and builder delegation

    A shallow embedding of [rllib/algorithms/ppo/ppo_catalog.py].

    The catalog's constructor validates the observation and action spaces,
    resolves the input and output dimensions of an encoder and two heads and
    stores the resulting configuration objects.  Configuration objects are
    Python objects with identity: [self.encoder_config] is referenced both
    by the catalog and by the actor-critic encoder config, and it is mutated
    after the latter has been created.  The embedding therefore keeps the
    objects in a store and lets the catalog hold locations. *)

From stdpp Require Import gmap strings list.

Local Open Scope Z_scope.
Local Set Warnings "-register-all".

(** ** Python values, exceptions and the store monad *)

Module Py.

(** The dynamically typed values that travel through the constructor:
    entries of [model_config_dict], dimensions, assertion messages. *)
Inductive value :=
| VNone
| VBool (b : bool)
| VInt (z : Z)
| VStr (s : string)
| VList (xs : list value)
| VTuple (xs : list value).

(** Python truthiness, as used by [assert not free_log_std]. *)
Definition truthy (v : value) : bool :=
  match v with
  | VNone => false
  | VBool b => b
  | VInt z => negb (z =? 0)
  | VStr s => negb (String.eqb s "")
  | VList xs | VTuple xs => match xs with [] => false | _ :: _ => true end
  end.

Inductive exn :=
| AssertionError (msg : value)
| KeyError (key : string)
| IndexError (msg : string)
| AttributeError (msg : string)
| NotImplementedError (msg : string)
| ValueError (msg : string).

Inductive result (A : Type) :=
| Ok (a : A)
| Raise (e : exn).
Global Arguments Ok {A} a.
Global Arguments Raise {A} e.

(** [d.get(k)]: a defaulting lookup, [None] when the key is absent. *)
Definition dict_get (d : gmap string value) (k : string) : value :=
  default VNone (d !! k).

(** [d[k]]: raises [KeyError] when the key is absent. *)
Definition dict_getitem (d : gmap string value) (k : string) : result value :=
  match d !! k with
  | Some v => Ok v
  | None => Raise (KeyError k)
  end.

(** [t[i]] on a tuple of integers, for a non-negative index. *)
Definition tuple_getitem (t : list Z) (i : nat) : result Z :=
  match t !! i with
  | Some z => Ok z
  | None => Raise (IndexError "tuple index out of range")
  end.

End Py.
Export Py.

(** ** gymnasium spaces *)

Module gym.

(** The space descriptors the constructor can receive.  A [Box] carries
    bounds and a dtype as well; the catalog inspects its [shape] only. *)
Inductive Space :=
| Box (shape : list Z)
| Discrete (n : Z)
| MultiDiscrete (nvec : list Z)
| MultiBinary (n : Z)
| Tuple (spaces : list Space).

Definition isinstance_Box (s : Space) : bool :=
  match s with Box _ => true | _ => false end.

Definition isinstance_Discrete (s : Space) : bool :=
  match s with Discrete _ => true | _ => false end.

(** [s.shape]; a composite space has shape [None]. *)
Definition shape (s : Space) : option (list Z) :=
  match s with
  | Box sh => Some sh
  | Discrete _ => Some []
  | MultiDiscrete nvec => Some [Z.of_nat (length nvec)]
  | MultiBinary n => Some [n]
  | Tuple _ => None
  end.

(** [s.n]; only [Discrete] and [MultiBinary] spaces have the attribute. *)
Definition n (s : Space) : result Z :=
  match s with
  | Discrete k | MultiBinary k => Ok k
  | _ => Raise (AttributeError "n")
  end.

End gym.

(** ** Configuration objects and the store *)

(** Locations in the store. *)
Abbreviation loc := nat.

(** Modelled from the spec: the declaration of the base encoder config
    (ray.rllib.core.models.configs) is not part of the sources.  Per the data
    model it has an [input_dim] and a declared [output_dim]; whatever else the
    generic catalog puts into it is kept in [other]. *)
Module EncoderConfig.
Record t := mk {
  input_dim : value;
  output_dim : value;
  other : list (string * value)
}.
Definition with_input_dim (v : value) (c : t) : t :=
  {| input_dim := v; output_dim := output_dim c; other := other c |}.
End EncoderConfig.

(** Modelled from the spec: the declaration of [ActorCriticEncoderConfig] is
    not part of the sources.  It wraps the base encoder config (a reference
    to the object, as the constructor passes [self.encoder_config]) and
    carries the [shared] flag. *)
Module ActorCriticEncoderConfig.
Record t := mk {
  base_encoder_config : loc;
  shared : value
}.
End ActorCriticEncoderConfig.

(** Modelled from the spec: the declaration of [MLPHeadConfig] is not part of
    the sources.  The five fields are the keyword arguments the constructor
    passes. *)
Module MLPHeadConfig.
Record t := mk {
  input_dim : value;
  hidden_layer_dims : value;
  hidden_layer_activation : value;
  output_activation : value;
  output_dim : value
}.
Definition with_input_dim (v : value) (c : t) : t :=
  {| input_dim := v;
     hidden_layer_dims := hidden_layer_dims c;
     hidden_layer_activation := hidden_layer_activation c;
     output_activation := output_activation c;
     output_dim := output_dim c |}.
Definition with_output_dim (v : value) (c : t) : t :=
  {| input_dim := input_dim c;
     hidden_layer_dims := hidden_layer_dims c;
     hidden_layer_activation := hidden_layer_activation c;
     output_activation := output_activation c;
     output_dim := v |}.
End MLPHeadConfig.

(** Modelled from the spec: a built network module is an opaque,
    backend-native handle; all that is recorded is the framework it was
    built for and the config object it was built from. *)
Module Model.
Record t := mk {
  framework : string;
  config : loc
}.
End Model.

Inductive obj :=
| OEncoderConfig (c : EncoderConfig.t)
| OActorCriticEncoderConfig (c : ActorCriticEncoderConfig.t)
| OMLPHeadConfig (c : MLPHeadConfig.t)
| OModel (m : Model.t).

(** The store: objects are allocated at the end and never freed. *)
Abbreviation heap := (list obj).

(** Computations that read and write the store and may raise.  A raised
    exception keeps the writes made before it. *)
Definition M (A : Type) : Type := heap → result A * heap.

Definition ret {A} (a : A) : M A := λ h, (Ok a, h).

Definition raise {A} (e : exn) : M A := λ h, (Raise e, h).

Definition bind {A B} (c : M A) (k : A → M B) : M B :=
  λ h, match c h with
       | (Ok a, h') => k a h'
       | (Raise e, h') => (Raise e, h')
       end.

Definition lift {A} (r : result A) : M A := λ h, (r, h).

Notation "'let*' x ':=' c 'in' k" := (bind c (λ x, k))
  (at level 10, x pattern, c at level 100, k at level 200).

(** [assert cond, msg] *)
Definition assert_ (cond : bool) (msg : value) : M unit :=
  if cond then ret tt else raise (AssertionError msg).

(** Object creation: the new object gets the next free location. *)
Definition alloc (o : obj) : M loc := λ h, (Ok (length h), h ++ [o]).

(** [cfg.output_dim] *)
Definition get_output_dim (l : loc) : M value :=
  λ h, match h !! l with
       | Some (OEncoderConfig c) => (Ok (EncoderConfig.output_dim c), h)
       | Some (OMLPHeadConfig c) => (Ok (MLPHeadConfig.output_dim c), h)
       | _ => (Raise (AttributeError "output_dim"), h)
       end.

(** [cfg.input_dim = v] *)
Definition set_input_dim (l : loc) (v : value) : M unit :=
  λ h, match h !! l with
       | Some (OEncoderConfig c) =>
           (Ok tt, <[l := OEncoderConfig (EncoderConfig.with_input_dim v c)]> h)
       | Some (OMLPHeadConfig c) =>
           (Ok tt, <[l := OMLPHeadConfig (MLPHeadConfig.with_input_dim v c)]> h)
       | _ => (Raise (AttributeError "input_dim"), h)
       end.

(** [cfg.output_dim = v] *)
Definition set_output_dim (l : loc) (v : value) : M unit :=
  λ h, match h !! l with
       | Some (OMLPHeadConfig c) =>
           (Ok tt, <[l := OMLPHeadConfig (MLPHeadConfig.with_output_dim v c)]> h)
       | _ => (Raise (AttributeError "output_dim"), h)
       end.

(** Modelled from the spec: the [build(framework)] methods of the config
    classes are not part of the sources.  Per the spec a call is a function
    of the stored configuration and the framework argument, returns a new
    module instance every time and caches nothing.  The actor-critic builder
    instantiates one encoder from the base encoder config when [shared] is
    set and two independent ones when it is not. *)
Definition MLPHeadConfig_build (l : loc) (framework : string) : M loc :=
  λ h, match h !! l with
       | Some (OMLPHeadConfig _) =>
           alloc (OModel {| Model.framework := framework; Model.config := l |}) h
       | _ => (Raise (AttributeError "build"), h)
       end.

Definition ActorCriticEncoderConfig_build (l : loc) (framework : string) : M loc :=
  λ h, match h !! l with
       | Some (OActorCriticEncoderConfig c) =>
           let encoder :=
             OModel {| Model.framework := framework;
                       Model.config := ActorCriticEncoderConfig.base_encoder_config c |} in
           (let* _ := alloc encoder in
            let* _ := if truthy (ActorCriticEncoderConfig.shared c)
                      then ret tt
                      else (let* _ := alloc encoder in ret tt) in
            alloc (OModel {| Model.framework := framework; Model.config := l |})) h
       | _ => (Raise (AttributeError "build"), h)
       end.

(** ** The catalog *)

(** What the generic [Catalog.__init__] leaves behind for the subclass: the
    attributes [model_config_dict] and [encoder_config] of [self]. *)
Module Catalog.
Record t := mk {
  observation_space : gym.Space;
  action_space : gym.Space;
  model_config_dict : gmap string value;
  encoder_config : loc
}.
End Catalog.

Module PPOCatalog.

Record t := mk {
  observation_space : gym.Space;
  action_space : gym.Space;
  model_config_dict : gmap string value;
  encoder_config : loc;
  actor_critic_encoder_config : loc;
  pi_head_config : loc;
  vf_head_config : loc
}.

Definition free_log_std_msg : string := "free_log_std not supported yet.".
Definition box_obs_msg : string :=
  "This simple PPO Module only supports Box observation space.".
Definition obs_1d_msg : string :=
  "This simple PPO Module only supports 1D observation spaces.".
Definition action_space_msg : string :=
  "This simple PPO Module only supports Discrete and Box action spaces.".
Definition build_encoder_msg : string :=
  "Use PPOCatalog.build_actor_critic_encoder() instead.".

Section WithSuperclass.

(** The superclass constructor is not part of the sources.  It is a
    parameter: given the three arguments it either raises or yields the
    dictionary it stores as [self.model_config_dict] and the generic
    encoder config it stores as [self.encoder_config]. *)
Variable Catalog_init :
  gym.Space → gym.Space → gmap string value →
  result (gmap string value * EncoderConfig.t).

(** [super().__init__(...)] *)
Definition super__init__
    (observation_space action_space : gym.Space)
    (model_config_dict : gmap string value) : M Catalog.t :=
  let* r := lift (Catalog_init observation_space action_space model_config_dict) in
  let* l := alloc (OEncoderConfig r.2) in
  ret {| Catalog.observation_space := observation_space;
         Catalog.action_space := action_space;
         Catalog.model_config_dict := r.1;
         Catalog.encoder_config := l |}.

(** [observation_space.shape] and [action_space.shape] *)
Definition getattr_shape (s : gym.Space) : M (list Z) :=
  match gym.shape s with
  | Some sh => ret sh
  | None => raise (AttributeError "shape")
  end.

(** Lines 69-72 and 96-99: the policy head's output dimension. *)
Definition pi_output_dim (action_space : gym.Space) : M Z :=
  if gym.isinstance_Discrete action_space then
    lift (gym.n action_space)
  else
    let* sh := getattr_shape action_space in
    let* k := lift (tuple_getitem sh 0) in
    ret (k * 2).

(** Lines 30-100.  The attributes of [self] are assigned one by one in the
    source; an instance whose constructor raised is never handed to the
    caller, so the catalog record is produced once, at the end.  The config
    objects themselves live in the store from the moment they are created. *)
Definition __init__
    (observation_space action_space : gym.Space)
    (model_config_dict : gmap string value) : M t :=
  let* self := super__init__ observation_space action_space model_config_dict in
  let free_log_std := dict_get model_config_dict "free_log_std" in
  let* _ := assert_ (negb (truthy free_log_std)) (VStr free_log_std_msg) in
  let* _ := assert_ (gym.isinstance_Box observation_space) (VStr box_obs_msg) in
  let* obs_shape := getattr_shape observation_space in
  let* _ := assert_ (length obs_shape =? 1)%nat (VStr obs_1d_msg) in
  let* _ := assert_ (gym.isinstance_Discrete action_space
                     || gym.isinstance_Box action_space)
                    (VTuple [VStr action_space_msg]) in
  (* Replace EncoderConfig by ActorCriticEncoderConfig *)
  let* shared := lift (dict_getitem (Catalog.model_config_dict self) "vf_share_layers") in
  let* actor_critic_encoder_config :=
    alloc (OActorCriticEncoderConfig
             {| ActorCriticEncoderConfig.base_encoder_config := Catalog.encoder_config self;
                ActorCriticEncoderConfig.shared := shared |}) in
  let* pi_out := pi_output_dim action_space in
  let* post_fcnet_hiddens :=
    lift (dict_getitem (Catalog.model_config_dict self) "post_fcnet_hiddens") in
  let* post_fcnet_activation :=
    lift (dict_getitem (Catalog.model_config_dict self) "post_fcnet_activation") in
  let* enc_out := get_output_dim (Catalog.encoder_config self) in
  let* pi_head_config :=
    alloc (OMLPHeadConfig
             {| MLPHeadConfig.input_dim := enc_out;
                MLPHeadConfig.hidden_layer_dims := post_fcnet_hiddens;
                MLPHeadConfig.hidden_layer_activation := post_fcnet_activation;
                MLPHeadConfig.output_activation := VStr "linear";
                MLPHeadConfig.output_dim := VInt pi_out |}) in
  let* enc_out' := get_output_dim (Catalog.encoder_config self) in
  let* vf_head_config :=
    alloc (OMLPHeadConfig
             {| MLPHeadConfig.input_dim := enc_out';
                MLPHeadConfig.hidden_layer_dims := post_fcnet_hiddens;
                MLPHeadConfig.hidden_layer_activation := post_fcnet_activation;
                MLPHeadConfig.output_activation := VStr "linear";
                MLPHeadConfig.output_dim := VInt 1 |}) in
  (* Set input- and output dimensions to fit PPO's needs. *)
  let* d := lift (tuple_getitem obs_shape 0) in
  let* _ := set_input_dim (Catalog.encoder_config self) (VInt d) in
  let* enc_out'' := get_output_dim (Catalog.encoder_config self) in
  let* _ := set_input_dim pi_head_config enc_out'' in
  let* pi_out' := pi_output_dim action_space in
  let* _ := set_output_dim pi_head_config (VInt pi_out') in
  let* _ := set_output_dim vf_head_config (VInt 1) in
  ret {| observation_space := Catalog.observation_space self;
         action_space := Catalog.action_space self;
         model_config_dict := Catalog.model_config_dict self;
         encoder_config := Catalog.encoder_config self;
         actor_critic_encoder_config := actor_critic_encoder_config;
         pi_head_config := pi_head_config;
         vf_head_config := vf_head_config |}.

End WithSuperclass.

(** Lines 102-115. *)
Definition build_actor_critic_encoder (self : t) (framework : string) : M loc :=
  ActorCriticEncoderConfig_build (actor_critic_encoder_config self) framework.

(** Lines 117-125: the override that turns the superclass method off. *)
Definition build_encoder (self : t) (framework : string) : M loc :=
  raise (NotImplementedError build_encoder_msg).

(** Lines 127-140. *)
Definition build_pi_head (self : t) (framework : string) : M loc :=
  MLPHeadConfig_build (pi_head_config self) framework.

(** Lines 142-155. *)
Definition build_vf_head (self : t) (framework : string) : M loc :=
  MLPHeadConfig_build (vf_head_config self) framework.

(** The keys of [self.model_config_dict] read with a subscript (lines 66,
    74 and 75), in the order they are read. *)
Definition subscripted_keys : list string :=
  ["vf_share_layers"; "post_fcnet_hiddens"; "post_fcnet_activation"].

(** *** The error taxonomy: which exception counts as which error *)

Definition unsupported_feature_error (e : exn) : bool :=
  match e with
  | AssertionError (VStr m) => String.eqb m free_log_std_msg
  | _ => false
  end.

Definition unsupported_space_error (e : exn) : bool :=
  match e with
  | AssertionError (VStr m) => String.eqb m box_obs_msg || String.eqb m obs_1d_msg
  | AssertionError (VTuple [VStr m]) => String.eqb m action_space_msg
  | _ => false
  end.

Definition unsupported_operation_error (e : exn) : bool :=
  match e with NotImplementedError _ => true | _ => false end.

Definition key_lookup_error (e : exn) : bool :=
  match e with KeyError _ => true | _ => false end.

(** *** The single-pass construction of the design notes

    This definition follows the spec's words, not the source: one
    construction function that takes the resolved dimensions as parameters
    from the start and writes every field once.  Besides the three
    dimensions it receives what the two-pass constructor has at hand after
    validation: the spaces, the stored dictionary, the generic encoder
    config and the three dictionary entries. *)
Definition construct_single_pass
    (encoder_input_dim pi_output_dim vf_output_dim : Z)
    (observation_space action_space : gym.Space)
    (stored_config : gmap string value)
    (generic_encoder : EncoderConfig.t)
    (vf_share_layers post_fcnet_hiddens post_fcnet_activation : value)
    (h : heap) : t * heap :=
  let l := length h in
  ({| observation_space := observation_space;
      action_space := action_space;
      model_config_dict := stored_config;
      encoder_config := l;
      actor_critic_encoder_config := (l + 1)%nat;
      pi_head_config := (l + 2)%nat;
      vf_head_config := (l + 3)%nat |},
   h ++ [ OEncoderConfig
            {| EncoderConfig.input_dim := VInt encoder_input_dim;
               EncoderConfig.output_dim := EncoderConfig.output_dim generic_encoder;
               EncoderConfig.other := EncoderConfig.other generic_encoder |};
          OActorCriticEncoderConfig
            {| ActorCriticEncoderConfig.base_encoder_config := l;
               ActorCriticEncoderConfig.shared := vf_share_layers |};
          OMLPHeadConfig
            {| MLPHeadConfig.input_dim := EncoderConfig.output_dim generic_encoder;
               MLPHeadConfig.hidden_layer_dims := post_fcnet_hiddens;
               MLPHeadConfig.hidden_layer_activation := post_fcnet_activation;
               MLPHeadConfig.output_activation := VStr "linear";
               MLPHeadConfig.output_dim := VInt pi_output_dim |};
          OMLPHeadConfig
            {| MLPHeadConfig.input_dim := EncoderConfig.output_dim generic_encoder;
               MLPHeadConfig.hidden_layer_dims := post_fcnet_hiddens;
               MLPHeadConfig.hidden_layer_activation := post_fcnet_activation;
               MLPHeadConfig.output_activation := VStr "linear";
               MLPHeadConfig.output_dim := VInt vf_output_dim |} ]).

(** The dimension resolver of the spec: [n] for a categorical action
    space, twice the leading entry of the shape for a real-valued one. *)
Definition resolved_pi_output_dim (action_space : gym.Space) : option Z :=
  match action_space with
  | gym.Discrete n => Some n
  | gym.Box (k :: _) => Some (2 * k)
  | _ => None
  end.

(** *** Reading the catalog's fields out of the store *)

Definition encoder_config_of (self : t) (h : heap) : option EncoderConfig.t :=
  match h !! encoder_config self with
  | Some (OEncoderConfig c) => Some c
  | _ => None
  end.

Definition actor_critic_encoder_config_of (self : t) (h : heap)
  : option ActorCriticEncoderConfig.t :=
  match h !! actor_critic_encoder_config self with
  | Some (OActorCriticEncoderConfig c) => Some c
  | _ => None
  end.

Definition pi_head_config_of (self : t) (h : heap) : option MLPHeadConfig.t :=
  match h !! pi_head_config self with
  | Some (OMLPHeadConfig c) => Some c
  | _ => None
  end.

Definition vf_head_config_of (self : t) (h : heap) : option MLPHeadConfig.t :=
  match h !! vf_head_config self with
  | Some (OMLPHeadConfig c) => Some c
  | _ => None
  end.

End PPOCatalog.

(** ** A concrete run

    To execute the constructor a superclass behaviour has to be fixed.  This
    one stores the caller's dictionary as it is and produces a generic
    encoder config whose input dimension is still unset. *)
Module Scenario.

Definition Catalog_init (observation_space action_space : gym.Space)
    (model_config_dict : gmap string value)
  : result (gmap string value * EncoderConfig.t) :=
  Ok (model_config_dict,
      {| EncoderConfig.input_dim := VNone;
         EncoderConfig.output_dim := VInt 256;
         EncoderConfig.other := [] |}).

(** The first scenario of the spec: a 4-dimensional observation vector and
    3 discrete actions. *)
Definition config (share : bool) : gmap string value :=
  <["vf_share_layers" := VBool share]>
    (<["post_fcnet_hiddens" := VList [VInt 32]]>
       (<["post_fcnet_activation" := VStr "relu"]> ∅)).

Definition discrete_run : result PPOCatalog.t * heap :=
  PPOCatalog.__init__ Catalog_init (gym.Box [4]) (gym.Discrete 3) (config true) [].

(** The second scenario: an 8-dimensional observation vector and a
    2-dimensional real-valued action. *)
Definition box_run : result PPOCatalog.t * heap :=
  PPOCatalog.__init__ Catalog_init (gym.Box [8]) (gym.Box [2]) (config false) [].

Definition discrete_self : PPOCatalog.t :=
  {| PPOCatalog.observation_space := gym.Box [4];
     PPOCatalog.action_space := gym.Discrete 3;
     PPOCatalog.model_config_dict := config true;
     PPOCatalog.encoder_config := 0%nat;
     PPOCatalog.actor_critic_encoder_config := 1%nat;
     PPOCatalog.pi_head_config := 2%nat;
     PPOCatalog.vf_head_config := 3%nat |}.

Definition head (output_dim : Z) : MLPHeadConfig.t :=
  {| MLPHeadConfig.input_dim := VInt 256;
     MLPHeadConfig.hidden_layer_dims := VList [VInt 32];
     MLPHeadConfig.hidden_layer_activation := VStr "relu";
     MLPHeadConfig.output_activation := VStr "linear";
     MLPHeadConfig.output_dim := VInt output_dim |}.

Definition discrete_heap : heap :=
  [ OEncoderConfig
      {| EncoderConfig.input_dim := VInt 4;
         EncoderConfig.output_dim := VInt 256;
         EncoderConfig.other := [] |};
    OActorCriticEncoderConfig
      {| ActorCriticEncoderConfig.base_encoder_config := 0%nat;
         ActorCriticEncoderConfig.shared := VBool true |};
    OMLPHeadConfig (head 3);
    OMLPHeadConfig (head 1) ].

Definition box_self : PPOCatalog.t :=
  {| PPOCatalog.observation_space := gym.Box [8];
     PPOCatalog.action_space := gym.Box [2];
     PPOCatalog.model_config_dict := config false;
     PPOCatalog.encoder_config := 0%nat;
     PPOCatalog.actor_critic_encoder_config := 1%nat;
     PPOCatalog.pi_head_config := 2%nat;
     PPOCatalog.vf_head_config := 3%nat |}.

Definition box_heap : heap :=
  [ OEncoderConfig
      {| EncoderConfig.input_dim := VInt 8;
         EncoderConfig.output_dim := VInt 256;
         EncoderConfig.other := [] |};
    OActorCriticEncoderConfig
      {| ActorCriticEncoderConfig.base_encoder_config := 0%nat;
         ActorCriticEncoderConfig.shared := VBool false |};
    OMLPHeadConfig (head 4);
    OMLPHeadConfig (head 1) ].

(** Inputs that trip more than one check at once. *)
Definition config_free_log_std : gmap string value :=
  <["free_log_std" := VBool true]> (config true).

Definition config_only_free_log_std : gmap string value :=
  <["free_log_std" := VBool true]> ∅.

(** A dictionary without ["post_fcnet_hiddens"]. *)
Definition config_no_hiddens : gmap string value :=
  <["vf_share_layers" := VBool false]>
    (<["post_fcnet_activation" := VStr "relu"]> ∅).

(** The first scenario's dictionary with entries the constructor does not
    read, and an explicit falsy ["free_log_std"]. *)
Definition config_with_extras : gmap string value :=
  <["free_log_std" := VBool false]>
    (<["fcnet_hiddens" := VList [VInt 256; VInt 256]]> (config true)).

End Scenario.

(** ** Predicates used in the statements *)

(** [build] returns a module on the store [h] and leaves the four config
    objects of [self] as they are in [h1]. *)
Definition returns_and_preserves
    (build : PPOCatalog.t → string → M loc)
    (self : PPOCatalog.t) (framework : string) (h1 h : heap) : Prop :=
  ∃ m h2,
    build self framework h = (Ok m, h2) ∧
    PPOCatalog.encoder_config_of self h2 = PPOCatalog.encoder_config_of self h1 ∧
    PPOCatalog.actor_critic_encoder_config_of self h2 =
      PPOCatalog.actor_critic_encoder_config_of self h1 ∧
    PPOCatalog.pi_head_config_of self h2 = PPOCatalog.pi_head_config_of self h1 ∧
    PPOCatalog.vf_head_config_of self h2 = PPOCatalog.vf_head_config_of self h1.

(** "Absent or falsy": what the defaulting lookup of [free_log_std] lets
    through. *)
Definition absent_or_falsy (d : gmap string value) (k : string) : Prop :=
  match d !! k with
  | None => True
  | Some v => truthy v = false
  end.

(** [self.actor_critic_encoder_config.base_encoder_config], followed through
    the store. *)
Definition base_encoder_config_of (self : PPOCatalog.t) (h : heap)
  : option EncoderConfig.t :=
  match PPOCatalog.actor_critic_encoder_config_of self h with
  | Some ac =>
      match h !! ActorCriticEncoderConfig.base_encoder_config ac with
      | Some (OEncoderConfig c) => Some c
      | _ => None
      end
  | None => None
  end.

(** ** Store lemmas *)

Section Store.

Lemma lookup_after (h l : list obj) (i : nat) :
  (h ++ l) !! (length h + i)%nat = l !! i.
Proof.
  rewrite lookup_app_r by lia. f_equal. lia.
Qed.

Lemma lookup_before (h l : list obj) (i : nat) :
  (i < length h)%nat → (h ++ l) !! i = h !! i.
Proof. apply lookup_app_l. Qed.

Lemma get_output_dim_after h l i :
  get_output_dim (length h + i)%nat (h ++ l) =
  match l !! i with
  | Some (OEncoderConfig c) => (Ok (EncoderConfig.output_dim c), h ++ l)
  | Some (OMLPHeadConfig c) => (Ok (MLPHeadConfig.output_dim c), h ++ l)
  | _ => (Raise (AttributeError "output_dim"), h ++ l)
  end.
Proof. unfold get_output_dim. by rewrite lookup_after. Qed.

Lemma set_input_dim_after h l i v :
  set_input_dim (length h + i)%nat v (h ++ l) =
  match l !! i with
  | Some (OEncoderConfig c) =>
      (Ok tt, h ++ <[i := OEncoderConfig (EncoderConfig.with_input_dim v c)]> l)
  | Some (OMLPHeadConfig c) =>
      (Ok tt, h ++ <[i := OMLPHeadConfig (MLPHeadConfig.with_input_dim v c)]> l)
  | _ => (Raise (AttributeError "input_dim"), h ++ l)
  end.
Proof.
  unfold set_input_dim. rewrite lookup_after.
  destruct (l !! i) as [[]|]; by rewrite ?insert_app_r.
Qed.

Lemma set_output_dim_after h l i v :
  set_output_dim (length h + i)%nat v (h ++ l) =
  match l !! i with
  | Some (OMLPHeadConfig c) =>
      (Ok tt, h ++ <[i := OMLPHeadConfig (MLPHeadConfig.with_output_dim v c)]> l)
  | _ => (Raise (AttributeError "output_dim"), h ++ l)
  end.
Proof.
  unfold set_output_dim. rewrite lookup_after.
  destruct (l !! i) as [[]|]; by rewrite ?insert_app_r.
Qed.

Lemma alloc_after h l o :
  alloc o (h ++ l) = (Ok (length h + length l)%nat, h ++ (l ++ [o])).
Proof. unfold alloc. by rewrite length_app, app_assoc. Qed.

End Store.

Section Construction.

Local Arguments bind : simpl never.
Local Arguments alloc : simpl never.
Local Arguments get_output_dim : simpl never.
Local Arguments set_input_dim : simpl never.
Local Arguments set_output_dim : simpl never.

Variable Catalog_init :
  gym.Space → gym.Space → gmap string value →
  result (gmap string value * EncoderConfig.t).

Abbreviation init := (PPOCatalog.__init__ Catalog_init).

(** Runs the constructor step by step on a store of the form [h ++ l]. *)
Ltac run_constructor :=
  repeat (unfold bind at 1;
          rewrite ?alloc_after, ?get_output_dim_after,
            ?set_input_dim_after, ?set_output_dim_after;
          cbn).

Lemma init_run obs act cfg h0 stored enc d pout shared hid actv :
  Catalog_init obs act cfg = Ok (stored, enc) →
  truthy (dict_get cfg "free_log_std") = false →
  obs = gym.Box [d] →
  PPOCatalog.resolved_pi_output_dim act = Some pout →
  stored !! "vf_share_layers" = Some shared →
  stored !! "post_fcnet_hiddens" = Some hid →
  stored !! "post_fcnet_activation" = Some actv →
  init obs act cfg h0 =
    (let r := PPOCatalog.construct_single_pass
                d pout 1 obs act stored enc shared hid actv h0 in
     (Ok r.1, r.2)).
Proof.
  intros HC Hf -> Hpi Hs Hh Ha.
  unfold PPOCatalog.__init__, PPOCatalog.super__init__.
  rewrite <- (app_nil_r h0) at 1.
  unfold bind at 1 2 3. unfold lift at 1. rewrite HC.
  rewrite alloc_after. cbn [length app ret fst snd].
  unfold dict_getitem. cbn [Catalog.model_config_dict Catalog.encoder_config].
  rewrite Hf, Hs, Hh, Ha.
  destruct act as [[|k sh]|n|nvec|n|sp]; cbn in Hpi; try discriminate Hpi;
    injection Hpi as <-.
  all: run_constructor.
  all: unfold ret, PPOCatalog.construct_single_pass; cbn.
  all: by rewrite ?Nat.add_0_r, ?(Z.mul_comm k 2).
Qed.

(** The constructor returns only on inputs that pass every check, and then
    with exactly the objects the single-pass construction creates. *)
Lemma init_inv obs act cfg h0 self h1 :
  init obs act cfg h0 = (Ok self, h1) →
  ∃ stored enc d pout shared hid actv,
    Catalog_init obs act cfg = Ok (stored, enc) ∧
    truthy (dict_get cfg "free_log_std") = false ∧
    obs = gym.Box [d] ∧
    PPOCatalog.resolved_pi_output_dim act = Some pout ∧
    stored !! "vf_share_layers" = Some shared ∧
    stored !! "post_fcnet_hiddens" = Some hid ∧
    stored !! "post_fcnet_activation" = Some actv ∧
    (self, h1) =
      PPOCatalog.construct_single_pass d pout 1 obs act stored enc shared hid actv h0.
Proof.
  destruct (Catalog_init obs act cfg) as [[stored enc]|e] eqn:HC.
  2: { unfold PPOCatalog.__init__, PPOCatalog.super__init__.
       unfold bind at 1 2. unfold lift. by rewrite HC. }
  destruct (truthy (dict_get cfg "free_log_std")) eqn:Hf.
  { unfold PPOCatalog.__init__, PPOCatalog.super__init__.
    unfold bind at 1 2 3. unfold lift. rewrite HC. cbn [alloc ret fst snd].
    unfold bind at 1. by rewrite Hf. }
  destruct (PPOCatalog.resolved_pi_output_dim act) as [pout|] eqn:Hpi,
    (stored !! "vf_share_layers") as [shared|] eqn:Hs,
    (stored !! "post_fcnet_hiddens") as [hid|] eqn:Hh,
    (stored !! "post_fcnet_activation") as [actv|] eqn:Ha,
    obs as [[|d [|d' sh']]|?|?|?|?].
  all: try (erewrite init_run by done; intros [= <- <-];
            by exists stored, enc, d, pout, shared, hid, actv).
  all: unfold PPOCatalog.__init__, PPOCatalog.super__init__;
    unfold bind at 1 2 3; unfold lift at 1; rewrite HC;
    unfold alloc at 1; cbn [ret fst snd];
    unfold dict_getitem; cbn [Catalog.model_config_dict Catalog.encoder_config];
    rewrite Hf, ?Hs, ?Hh, ?Ha.
  all: destruct act as [[|? ?]|?|?|?|?]; cbn in Hpi; try discriminate Hpi.
  all: by repeat (unfold bind at 1; cbn).
Qed.

End Construction.

(** ** What the single-pass construction leaves in the store *)

Section Fields.

Variables (d pout vout : Z) (obs act : gym.Space) (stored : gmap string value)
          (enc : EncoderConfig.t) (shared hid actv : value) (h0 : heap).

Local Abbreviation r :=
  (PPOCatalog.construct_single_pass
     d pout vout obs act stored enc shared hid actv h0).

Lemma single_pass_encoder :
  PPOCatalog.encoder_config_of r.1 r.2 =
  Some {| EncoderConfig.input_dim := VInt d;
          EncoderConfig.output_dim := EncoderConfig.output_dim enc;
          EncoderConfig.other := EncoderConfig.other enc |}.
Proof.
  unfold PPOCatalog.encoder_config_of; cbn.
  by rewrite list_lookup_middle.
Qed.

Lemma single_pass_actor_critic :
  PPOCatalog.actor_critic_encoder_config_of r.1 r.2 =
  Some {| ActorCriticEncoderConfig.base_encoder_config := PPOCatalog.encoder_config r.1;
          ActorCriticEncoderConfig.shared := shared |}.
Proof.
  unfold PPOCatalog.actor_critic_encoder_config_of; cbn.
  by rewrite lookup_after.
Qed.

Lemma single_pass_pi_head :
  PPOCatalog.pi_head_config_of r.1 r.2 =
  Some {| MLPHeadConfig.input_dim := EncoderConfig.output_dim enc;
          MLPHeadConfig.hidden_layer_dims := hid;
          MLPHeadConfig.hidden_layer_activation := actv;
          MLPHeadConfig.output_activation := VStr "linear";
          MLPHeadConfig.output_dim := VInt pout |}.
Proof.
  unfold PPOCatalog.pi_head_config_of; cbn.
  by rewrite lookup_after.
Qed.

Lemma single_pass_vf_head :
  PPOCatalog.vf_head_config_of r.1 r.2 =
  Some {| MLPHeadConfig.input_dim := EncoderConfig.output_dim enc;
          MLPHeadConfig.hidden_layer_dims := hid;
          MLPHeadConfig.hidden_layer_activation := actv;
          MLPHeadConfig.output_activation := VStr "linear";
          MLPHeadConfig.output_dim := VInt vout |}.
Proof.
  unfold PPOCatalog.vf_head_config_of; cbn.
  by rewrite lookup_after.
Qed.

Lemma single_pass_length : length r.2 = (length h0 + 4)%nat.
Proof. cbn. by rewrite length_app. Qed.

Lemma single_pass_locations :
  (PPOCatalog.encoder_config r.1 < length r.2)%nat ∧
  (PPOCatalog.actor_critic_encoder_config r.1 < length r.2)%nat ∧
  (PPOCatalog.pi_head_config r.1 < length r.2)%nat ∧
  (PPOCatalog.vf_head_config r.1 < length r.2)%nat.
Proof. rewrite single_pass_length. cbn. lia. Qed.

End Fields.

(** ** The builders only allocate *)

Section Builders.

Lemma MLPHeadConfig_build_run l fw h c :
  h !! l = Some (OMLPHeadConfig c) →
  MLPHeadConfig_build l fw h =
  (Ok (length h), h ++ [OModel {| Model.framework := fw; Model.config := l |}]).
Proof. unfold MLPHeadConfig_build. by intros ->. Qed.

Lemma ActorCriticEncoderConfig_build_run l fw h c :
  h !! l = Some (OActorCriticEncoderConfig c) →
  ∃ m new, ActorCriticEncoderConfig_build l fw h = (Ok m, h ++ new).
Proof.
  unfold ActorCriticEncoderConfig_build. intros ->.
  unfold bind, alloc, ret.
  destruct (truthy (ActorCriticEncoderConfig.shared c)).
  - eexists _, [_; _]. by rewrite <- app_assoc.
  - eexists _, [_; _; _]. by rewrite <- !app_assoc.
Qed.

(** A catalog field read from a store is the same in every extension of the
    store. *)
Lemma fields_extend (self : PPOCatalog.t) (h new : list obj) :
  (PPOCatalog.encoder_config self < length h)%nat →
  (PPOCatalog.actor_critic_encoder_config self < length h)%nat →
  (PPOCatalog.pi_head_config self < length h)%nat →
  (PPOCatalog.vf_head_config self < length h)%nat →
  PPOCatalog.encoder_config_of self (h ++ new) = PPOCatalog.encoder_config_of self h ∧
  PPOCatalog.actor_critic_encoder_config_of self (h ++ new) =
    PPOCatalog.actor_critic_encoder_config_of self h ∧
  PPOCatalog.pi_head_config_of self (h ++ new) = PPOCatalog.pi_head_config_of self h ∧
  PPOCatalog.vf_head_config_of self (h ++ new) = PPOCatalog.vf_head_config_of self h.
Proof.
  intros He Ha Hp Hv.
  unfold PPOCatalog.encoder_config_of, PPOCatalog.actor_critic_encoder_config_of,
    PPOCatalog.pi_head_config_of, PPOCatalog.vf_head_config_of.
  by rewrite !lookup_before.
Qed.

End Builders.

Lemma absent_or_falsy_get d k :
  absent_or_falsy d k → truthy (dict_get d k) = false.
Proof. unfold absent_or_falsy, dict_get. by destruct (d !! k). Qed.

(** ** Properties of the constructor and of the builder methods *)

Section Claims.

Variable Catalog_init :
  gym.Space → gym.Space → gmap string value →
  result (gmap string value * EncoderConfig.t).

Abbreviation init := (PPOCatalog.__init__ Catalog_init).

Local Arguments bind : simpl never.

Ltac invert_init H :=
  apply init_inv in H as
    (stored & enc & dim & pout & shared & hid & actv &
     HC & Hf & Hobs & Hpi & Hs & Hh & Ha & Hr);
  pose proof (f_equal fst Hr) as Hself;
  pose proof (f_equal snd Hr) as Hheap;
  cbn [fst snd] in Hself, Hheap.

(** C1: for every validly constructed catalog the policy head's output
    dimension is [n] when the action space is [Discrete] with [n]
    categories, and [2 * k] when it is a [Box] whose shape starts with [k]
    (so for the vector space of shape [(k,)]); no other action space gets
    through construction. *)
Theorem pi_head_output_dim obs act cfg h0 self h1 :
  init obs act cfg h0 = (Ok self, h1) →
  ∃ pi, PPOCatalog.pi_head_config_of self h1 = Some pi ∧
    match act with
    | gym.Discrete n => MLPHeadConfig.output_dim pi = VInt n
    | gym.Box sh =>
        ∃ k rest, sh = k :: rest ∧ MLPHeadConfig.output_dim pi = VInt (2 * k)
    | _ => False
    end.
Proof.
  intros H. invert_init H. subst self h1.
  eexists. split; [apply single_pass_pi_head|]. cbn.
  destruct act as [[|k rest]|n| | |]; simplify_eq/=; eauto.
Qed.

(** C2: for every validly constructed catalog, whatever the spaces and the
    dictionary, the value head's output dimension is 1. *)
Theorem vf_head_output_dim obs act cfg h0 self h1 :
  init obs act cfg h0 = (Ok self, h1) →
  ∃ vf, PPOCatalog.vf_head_config_of self h1 = Some vf ∧
    MLPHeadConfig.output_dim vf = VInt 1.
Proof.
  intros H. invert_init H. subst self h1.
  eexists. split; [apply single_pass_vf_head|]. done.
Qed.

(** C3: for a 1-D [Box] observation space of dimension [d], after
    construction the encoder config's input dimension is [d]. *)
Theorem encoder_input_dim d act cfg h0 self h1 :
  init (gym.Box [d]) act cfg h0 = (Ok self, h1) →
  ∃ enc, PPOCatalog.encoder_config_of self h1 = Some enc ∧
    EncoderConfig.input_dim enc = VInt d.
Proof.
  intros H. invert_init H. subst self h1. injection Hobs as <-.
  eexists. split; [apply single_pass_encoder|]. done.
Qed.

(** C4: whenever [free_log_std] maps to a truthy value, construction fails
    with the unsupported-feature error, whatever the spaces and the rest of
    the dictionary are (the superclass constructor having returned). *)
Theorem free_log_std_rejected obs act cfg h0 stored enc v :
  Catalog_init obs act cfg = Ok (stored, enc) →
  cfg !! "free_log_std" = Some v →
  truthy v = true →
  ∃ e h1, init obs act cfg h0 = (Raise e, h1) ∧
    e = AssertionError (VStr PPOCatalog.free_log_std_msg) ∧
    PPOCatalog.unsupported_feature_error e = true.
Proof.
  intros HC Hv Ht.
  unfold PPOCatalog.__init__, PPOCatalog.super__init__.
  unfold bind at 1 2 3. unfold lift. rewrite HC. cbn [alloc ret fst snd].
  unfold bind at 1. unfold dict_get. rewrite Hv. cbn. rewrite Ht. cbn.
  eauto.
Qed.

(** C5, as amended: when the superclass constructor returns and
    [free_log_std] is absent or falsy, construction fails with the
    unsupported-space error for every observation space that is not a 1-D
    [Box], and for every action space that is neither [Discrete] nor
    [Box]. *)
Theorem unsupported_space_rejected obs act cfg h0 stored enc :
  Catalog_init obs act cfg = Ok (stored, enc) →
  absent_or_falsy cfg "free_log_std" →
  (∀ d, obs ≠ gym.Box [d]) ∨
  gym.isinstance_Discrete act || gym.isinstance_Box act = false →
  ∃ e h1, init obs act cfg h0 = (Raise e, h1) ∧
    PPOCatalog.unsupported_space_error e = true.
Proof.
  intros HC Hf%absent_or_falsy_get Hbad.
  unfold PPOCatalog.__init__, PPOCatalog.super__init__.
  unfold bind at 1 2 3. unfold lift. rewrite HC. cbn [alloc ret fst snd].
  unfold bind at 1. rewrite Hf. cbn.
  destruct obs as [[|d [|d' sh]]| | | |].
  all: try by (unfold bind at 1; cbn; eauto).
  all: try by (unfold bind at 1 2 3; cbn; eauto).
  destruct Hbad as [Hobs|Hact]; [by destruct (Hobs d)|].
  unfold bind at 1 2 3 4. cbn. rewrite Hact. cbn. eauto.
Qed.

(** C6: [build_encoder] raises the unsupported-operation error for every
    catalog, framework and store, and leaves the store as it was. *)
Theorem build_encoder_raises (self : PPOCatalog.t) (framework : string) (h : heap) :
  PPOCatalog.build_encoder self framework h =
    (Raise (NotImplementedError PPOCatalog.build_encoder_msg), h) ∧
  PPOCatalog.unsupported_operation_error
    (NotImplementedError PPOCatalog.build_encoder_msg) = true.
Proof. done. Qed.

(** C7: the two-pass constructor returns exactly when its inputs resolve
    (encoder input dimension [d] from the observation space's shape [(d,)],
    policy output dimension from the action space, value output dimension
    1, the three entries present in the stored dictionary), and then the
    catalog and the store it yields are those of the single-pass
    construction given these dimensions from the start. *)
Theorem two_pass_is_single_pass obs act cfg h0 self h1 :
  init obs act cfg h0 = (Ok self, h1) ↔
  ∃ stored enc d pout shared hid actv,
    Catalog_init obs act cfg = Ok (stored, enc) ∧
    truthy (dict_get cfg "free_log_std") = false ∧
    obs = gym.Box [d] ∧
    PPOCatalog.resolved_pi_output_dim act = Some pout ∧
    stored !! "vf_share_layers" = Some shared ∧
    stored !! "post_fcnet_hiddens" = Some hid ∧
    stored !! "post_fcnet_activation" = Some actv ∧
    PPOCatalog.construct_single_pass
      d pout 1 obs act stored enc shared hid actv h0 = (self, h1).
Proof.
  split.
  - intros H. invert_init H.
    exists stored, enc, dim, pout, shared, hid, actv.
    repeat (split; [done|]). by subst self h1.
  - intros (stored & enc & d & pout & shared & hid & actv &
            HC & Hf & Hobs & Hpi & Hs & Hh & Ha & Hr).
    erewrite init_run by done. by rewrite Hr.
Qed.

(** C8: for every validly constructed catalog, every framework argument
    and every store that extends the one construction left behind, each
    of [build_actor_critic_encoder], [build_pi_head] and [build_vf_head]
    returns a module and leaves the encoder config, the actor-critic
    encoder config and both head configs as construction left them. *)
Theorem build_methods_preserve_fields obs act cfg h0 self h1 framework later :
  init obs act cfg h0 = (Ok self, h1) →
  returns_and_preserves PPOCatalog.build_actor_critic_encoder
    self framework h1 (h1 ++ later) ∧
  returns_and_preserves PPOCatalog.build_pi_head self framework h1 (h1 ++ later) ∧
  returns_and_preserves PPOCatalog.build_vf_head self framework h1 (h1 ++ later).
Proof.
  intros H. invert_init H.
  pose proof (single_pass_locations dim pout 1 obs act stored enc shared hid actv h0)
    as (Le & La & Lp & Lv).
  pose proof (single_pass_actor_critic dim pout 1 obs act stored enc shared hid actv h0)
    as Fa.
  pose proof (single_pass_pi_head dim pout 1 obs act stored enc shared hid actv h0)
    as Fp.
  pose proof (single_pass_vf_head dim pout 1 obs act stored enc shared hid actv h0)
    as Fv.
  rewrite <- Hself, <- Hheap in Le, La, Lp, Lv, Fa, Fp, Fv. clear Hr Hself Hheap.
  unfold PPOCatalog.actor_critic_encoder_config_of in Fa.
  unfold PPOCatalog.pi_head_config_of in Fp.
  unfold PPOCatalog.vf_head_config_of in Fv.
  destruct (h1 !! PPOCatalog.actor_critic_encoder_config self)
    as [[| ac | |]|] eqn:Ea; try discriminate Fa.
  destruct (h1 !! PPOCatalog.pi_head_config self)
    as [[| | pi |]|] eqn:Ep; try discriminate Fp.
  destruct (h1 !! PPOCatalog.vf_head_config self)
    as [[| | vf |]|] eqn:Ev; try discriminate Fv.
  unfold returns_and_preserves.
  split; [|split].
  - destruct (ActorCriticEncoderConfig_build_run
                (PPOCatalog.actor_critic_encoder_config self) framework
                (h1 ++ later) ac) as (m & new & Hb).
    { by rewrite lookup_before. }
    exists m, (h1 ++ later ++ new).
    unfold PPOCatalog.build_actor_critic_encoder.
    rewrite Hb, <- app_assoc. split; [done|]. by apply fields_extend.
  - eexists _, (h1 ++ later ++ [_]).
    unfold PPOCatalog.build_pi_head.
    erewrite MLPHeadConfig_build_run by (by rewrite lookup_before).
    rewrite <- app_assoc. split; [done|]. by apply fields_extend.
  - eexists _, (h1 ++ later ++ [_]).
    unfold PPOCatalog.build_vf_head.
    erewrite MLPHeadConfig_build_run by (by rewrite lookup_before).
    rewrite <- app_assoc. split; [done|]. by apply fields_extend.
Qed.

(** C9: for every validly constructed catalog the actor-critic encoder
    config's [shared] flag is the entry ["vf_share_layers"] of the
    catalog's model config dictionary, untransformed, and its base encoder
    config is the very object the catalog holds as [encoder_config].  When
    the superclass keeps the caller's entry, the flag is the entry of the
    dictionary passed to the constructor. *)
Theorem shared_flag_copied obs act cfg h0 self h1 :
  init obs act cfg h0 = (Ok self, h1) →
  ∃ ac, PPOCatalog.actor_critic_encoder_config_of self h1 = Some ac ∧
    PPOCatalog.model_config_dict self !! "vf_share_layers" =
      Some (ActorCriticEncoderConfig.shared ac) ∧
    ActorCriticEncoderConfig.base_encoder_config ac = PPOCatalog.encoder_config self ∧
    ((∀ stored enc, Catalog_init obs act cfg = Ok (stored, enc) →
                    stored !! "vf_share_layers" = cfg !! "vf_share_layers") →
     cfg !! "vf_share_layers" = Some (ActorCriticEncoderConfig.shared ac)).
Proof.
  intros H. invert_init H. subst self h1.
  eexists. split; [apply single_pass_actor_critic|]. cbn.
  repeat split; [done|]. intros Hkeep. by rewrite <- (Hkeep _ _ HC).
Qed.

(** C10, as amended: on inputs that pass the earlier checks (the
    superclass constructor returns, [free_log_std] is absent or falsy, the
    observation space is a 1-D [Box], the action space is [Discrete] or a
    [Box] with a non-empty shape), construction fails with a key-lookup
    error, which is neither of the descriptive errors, as soon as the
    stored dictionary lacks one of ["vf_share_layers"],
    ["post_fcnet_hiddens"], ["post_fcnet_activation"]; the error names a
    missing key.  When the
    three keys are present construction returns, so an absent
    ["free_log_std"] is tolerated. *)
Theorem missing_key_raises_KeyError obs act cfg h0 stored enc d pout :
  Catalog_init obs act cfg = Ok (stored, enc) →
  absent_or_falsy cfg "free_log_std" →
  obs = gym.Box [d] →
  PPOCatalog.resolved_pi_output_dim act = Some pout →
  ((∃ k, k ∈ PPOCatalog.subscripted_keys ∧ stored !! k = None) →
   ∃ k h1, init obs act cfg h0 = (Raise (KeyError k), h1) ∧
     k ∈ PPOCatalog.subscripted_keys ∧
     stored !! k = None ∧
     PPOCatalog.key_lookup_error (KeyError k) = true ∧
     PPOCatalog.unsupported_feature_error (KeyError k) = false ∧
     PPOCatalog.unsupported_space_error (KeyError k) = false) ∧
  ((∀ k, k ∈ PPOCatalog.subscripted_keys → is_Some (stored !! k)) →
   ∃ self h1, init obs act cfg h0 = (Ok self, h1)).
Proof.
  intros HC Hf%absent_or_falsy_get -> Hpi. split.
  - intros (k0 & Hk & Hnone).
    unfold PPOCatalog.__init__, PPOCatalog.super__init__.
    unfold bind at 1 2 3. unfold lift at 1. rewrite HC.
    unfold alloc at 1. cbn [ret fst snd].
    unfold dict_getitem. cbn [Catalog.model_config_dict Catalog.encoder_config].
    rewrite Hf.
    destruct (stored !! "vf_share_layers") eqn:Hs,
      (stored !! "post_fcnet_hiddens") eqn:Hh,
      (stored !! "post_fcnet_activation") eqn:Ha.
    { exfalso. unfold PPOCatalog.subscripted_keys in Hk.
      repeat (apply elem_of_cons in Hk as [->|Hk]); try congruence.
      by apply elem_of_nil in Hk. }
    all: destruct act as [[|? ?]| | | |]; try discriminate Hpi.
    all: repeat (unfold bind at 1; cbn).
    all: eexists _, _; split; [reflexivity|].
    all: repeat split; try done.
    all: unfold PPOCatalog.subscripted_keys; rewrite !elem_of_cons; auto.
  - intros Hall.
    unfold PPOCatalog.subscripted_keys in Hall.
    destruct (Hall "vf_share_layers") as [shared Hs];
      [rewrite !elem_of_cons; auto|].
    destruct (Hall "post_fcnet_hiddens") as [hid Hh];
      [rewrite !elem_of_cons; auto|].
    destruct (Hall "post_fcnet_activation") as [actv Ha];
      [rewrite !elem_of_cons; auto|].
    erewrite init_run by done. eauto.
Qed.

End Claims.

(** ** The scenarios of the spec, executed *)

Example discrete_run_result :
  Scenario.discrete_run = (Ok Scenario.discrete_self, Scenario.discrete_heap).
Proof. reflexivity. Qed.

Example box_run_result :
  Scenario.box_run = (Ok Scenario.box_self, Scenario.box_heap).
Proof. reflexivity. Qed.

(** ** The theorems at the scenarios *)

Lemma pi_head_output_dim_witness :
  (Scenario.discrete_run = (Ok Scenario.discrete_self, Scenario.discrete_heap) ∧
   ∃ pi, PPOCatalog.pi_head_config_of Scenario.discrete_self Scenario.discrete_heap
           = Some pi ∧
         MLPHeadConfig.output_dim pi = VInt 3) ∧
  (Scenario.box_run = (Ok Scenario.box_self, Scenario.box_heap) ∧
   ∃ pi, PPOCatalog.pi_head_config_of Scenario.box_self Scenario.box_heap = Some pi ∧
         ∃ k rest, [2] = k :: rest ∧ MLPHeadConfig.output_dim pi = VInt (2 * k)).
Proof.
  split; (split; [reflexivity|]).
  - apply (pi_head_output_dim Scenario.Catalog_init
             (gym.Box [4]) (gym.Discrete 3) (Scenario.config true) []).
    reflexivity.
  - apply (pi_head_output_dim Scenario.Catalog_init
             (gym.Box [8]) (gym.Box [2]) (Scenario.config false) []).
    reflexivity.
Defined.

Lemma vf_head_output_dim_witness :
  Scenario.box_run = (Ok Scenario.box_self, Scenario.box_heap) ∧
  ∃ vf, PPOCatalog.vf_head_config_of Scenario.box_self Scenario.box_heap = Some vf ∧
        MLPHeadConfig.output_dim vf = VInt 1.
Proof.
  split; [reflexivity|].
  apply (vf_head_output_dim Scenario.Catalog_init
           (gym.Box [8]) (gym.Box [2]) (Scenario.config false) []).
  reflexivity.
Defined.

Lemma encoder_input_dim_witness :
  Scenario.discrete_run = (Ok Scenario.discrete_self, Scenario.discrete_heap) ∧
  ∃ enc, PPOCatalog.encoder_config_of Scenario.discrete_self Scenario.discrete_heap
           = Some enc ∧
         EncoderConfig.input_dim enc = VInt 4.
Proof.
  split; [reflexivity|].
  apply (encoder_input_dim Scenario.Catalog_init
           4 (gym.Discrete 3) (Scenario.config true) []).
  reflexivity.
Defined.

Lemma free_log_std_rejected_witness :
  Scenario.config_free_log_std !! "free_log_std" = Some (VBool true) ∧
  truthy (VBool true) = true ∧
  ∃ e h1,
    PPOCatalog.__init__ Scenario.Catalog_init (gym.Box [84; 84]) (gym.Discrete 3)
      Scenario.config_free_log_std [] = (Raise e, h1) ∧
    e = AssertionError (VStr PPOCatalog.free_log_std_msg) ∧
    PPOCatalog.unsupported_feature_error e = true.
Proof.
  split; [reflexivity|]. split; [reflexivity|].
  eapply (free_log_std_rejected Scenario.Catalog_init
            (gym.Box [84; 84]) (gym.Discrete 3) Scenario.config_free_log_std []).
  - reflexivity.
  - reflexivity.
  - reflexivity.
Defined.

Lemma unsupported_space_rejected_witness :
  absent_or_falsy (Scenario.config true) "free_log_std" ∧
  (∀ d, gym.Box [84; 84] ≠ gym.Box [d]) ∧
  ∃ e h1,
    PPOCatalog.__init__ Scenario.Catalog_init (gym.Box [84; 84]) (gym.Discrete 3)
      (Scenario.config true) [] = (Raise e, h1) ∧
    PPOCatalog.unsupported_space_error e = true.
Proof.
  split; [by vm_compute|]. split; [by intros d|].
  eapply (unsupported_space_rejected Scenario.Catalog_init
            (gym.Box [84; 84]) (gym.Discrete 3) (Scenario.config true) []).
  - reflexivity.
  - by vm_compute.
  - left. by intros d.
Defined.

Lemma two_pass_is_single_pass_witness :
  PPOCatalog.construct_single_pass 4 3 1 (gym.Box [4]) (gym.Discrete 3)
    (Scenario.config true) (EncoderConfig.mk VNone (VInt 256) [])
    (VBool true) (VList [VInt 32]) (VStr "relu") []
  = (Scenario.discrete_self, Scenario.discrete_heap) ∧
  Scenario.discrete_run = (Ok Scenario.discrete_self, Scenario.discrete_heap).
Proof.
  split; [reflexivity|].
  apply (two_pass_is_single_pass Scenario.Catalog_init
           (gym.Box [4]) (gym.Discrete 3) (Scenario.config true) []).
  exists (Scenario.config true), (EncoderConfig.mk VNone (VInt 256) []),
    4, 3, (VBool true), (VList [VInt 32]), (VStr "relu").
  repeat split; reflexivity.
Defined.

Lemma build_methods_preserve_fields_witness :
  Scenario.box_run = (Ok Scenario.box_self, Scenario.box_heap) ∧
  returns_and_preserves PPOCatalog.build_actor_critic_encoder
    Scenario.box_self "torch" Scenario.box_heap (Scenario.box_heap ++ []) ∧
  returns_and_preserves PPOCatalog.build_pi_head
    Scenario.box_self "torch" Scenario.box_heap (Scenario.box_heap ++ []) ∧
  returns_and_preserves PPOCatalog.build_vf_head
    Scenario.box_self "torch" Scenario.box_heap (Scenario.box_heap ++ []).
Proof.
  split; [reflexivity|].
  apply (build_methods_preserve_fields Scenario.Catalog_init
           (gym.Box [8]) (gym.Box [2]) (Scenario.config false) []).
  reflexivity.
Defined.

Lemma shared_flag_copied_witness :
  Scenario.box_run = (Ok Scenario.box_self, Scenario.box_heap) ∧
  ∃ ac, PPOCatalog.actor_critic_encoder_config_of Scenario.box_self Scenario.box_heap
          = Some ac ∧
        ActorCriticEncoderConfig.shared ac = VBool false ∧
        ActorCriticEncoderConfig.base_encoder_config ac =
          PPOCatalog.encoder_config Scenario.box_self.
Proof.
  split; [reflexivity|].
  destruct (shared_flag_copied Scenario.Catalog_init
              (gym.Box [8]) (gym.Box [2]) (Scenario.config false) []
              Scenario.box_self Scenario.box_heap)
    as (ac & Hac & Hshared & Hbase & _); [reflexivity|].
  exists ac. split; [exact Hac|]. split; [|exact Hbase].
  change (PPOCatalog.model_config_dict Scenario.box_self !! "vf_share_layers")
    with (Some (VBool false)) in Hshared.
  by injection Hshared.
Defined.

Lemma missing_key_raises_KeyError_witness :
  absent_or_falsy Scenario.config_no_hiddens "free_log_std" ∧
  PPOCatalog.resolved_pi_output_dim (gym.Box [2]) = Some 4 ∧
  Scenario.config_no_hiddens !! "post_fcnet_hiddens" = None ∧
  ∃ k h1,
    PPOCatalog.__init__ Scenario.Catalog_init (gym.Box [8]) (gym.Box [2])
      Scenario.config_no_hiddens [] = (Raise (KeyError k), h1) ∧
    k ∈ PPOCatalog.subscripted_keys ∧
    Scenario.config_no_hiddens !! k = None ∧
    PPOCatalog.key_lookup_error (KeyError k) = true ∧
    PPOCatalog.unsupported_feature_error (KeyError k) = false ∧
    PPOCatalog.unsupported_space_error (KeyError k) = false.
Proof.
  split; [by vm_compute|]. split; [reflexivity|]. split; [reflexivity|].
  eapply (missing_key_raises_KeyError Scenario.Catalog_init
            (gym.Box [8]) (gym.Box [2]) Scenario.config_no_hiddens [] _ _ 8 4).
  - reflexivity.
  - by vm_compute.
  - reflexivity.
  - reflexivity.
  - exists "post_fcnet_hiddens". split; [|reflexivity].
    unfold PPOCatalog.subscripted_keys. rewrite !elem_of_cons. auto.
Defined.

(** ** Inputs on which an earlier check answers first *)

(** C5 as stated fails: with [free_log_std] set, a 2-D observation space, and
    likewise an action space that is neither [Discrete] nor [Box], is turned
    down with the unsupported-feature error, not the unsupported-space
    error. *)
Lemma unsupported_space_counterexample :
  let image_run :=
    PPOCatalog.__init__ Scenario.Catalog_init (gym.Box [84; 84]) (gym.Discrete 3)
      Scenario.config_free_log_std [] in
  let multi_run :=
    PPOCatalog.__init__ Scenario.Catalog_init (gym.Box [4]) (gym.MultiDiscrete [2; 3])
      Scenario.config_free_log_std [] in
  (∀ d, gym.Box [84; 84] ≠ gym.Box [d]) ∧
  gym.isinstance_Discrete (gym.MultiDiscrete [2; 3])
    || gym.isinstance_Box (gym.MultiDiscrete [2; 3]) = false ∧
  image_run.1 = Raise (AssertionError (VStr PPOCatalog.free_log_std_msg)) ∧
  multi_run.1 = Raise (AssertionError (VStr PPOCatalog.free_log_std_msg)) ∧
  PPOCatalog.unsupported_space_error
    (AssertionError (VStr PPOCatalog.free_log_std_msg)) = false ∧
  ¬ (∃ e h1, image_run = (Raise e, h1) ∧ PPOCatalog.unsupported_space_error e = true) ∧
  ¬ (∃ e h1, multi_run = (Raise e, h1) ∧ PPOCatalog.unsupported_space_error e = true).
Proof.
  cbv zeta. repeat split; try reflexivity.
  - by intros d.
  - intros (e & h1 & Hrun & He).
    apply (f_equal fst) in Hrun. cbn [fst] in Hrun.
    change (Raise (AssertionError (VStr PPOCatalog.free_log_std_msg))
            = Raise (A := PPOCatalog.t) e) in Hrun.
    injection Hrun as <-. discriminate He.
  - intros (e & h1 & Hrun & He).
    apply (f_equal fst) in Hrun. cbn [fst] in Hrun.
    change (Raise (AssertionError (VStr PPOCatalog.free_log_std_msg))
            = Raise (A := PPOCatalog.t) e) in Hrun.
    injection Hrun as <-. discriminate He.
Qed.

(** C10 as stated fails: a dictionary that lacks the three keys does not lead
    to a key-lookup error when an earlier check fails; the descriptive error
    of that check is raised. *)
Lemma missing_key_counterexample :
  let flagged_run :=
    PPOCatalog.__init__ Scenario.Catalog_init (gym.Box [4]) (gym.Discrete 3)
      Scenario.config_only_free_log_std [] in
  let multi_run :=
    PPOCatalog.__init__ Scenario.Catalog_init (gym.Box [4]) (gym.MultiDiscrete [2; 3])
      ∅ [] in
  (∀ k, k ∈ PPOCatalog.subscripted_keys →
        Scenario.config_only_free_log_std !! k = None ∧
        (∅ : gmap string value) !! k = None) ∧
  flagged_run.1 = Raise (AssertionError (VStr PPOCatalog.free_log_std_msg)) ∧
  PPOCatalog.unsupported_feature_error
    (AssertionError (VStr PPOCatalog.free_log_std_msg)) = true ∧
  multi_run.1 = Raise (AssertionError (VTuple [VStr PPOCatalog.action_space_msg])) ∧
  PPOCatalog.unsupported_space_error
    (AssertionError (VTuple [VStr PPOCatalog.action_space_msg])) = true ∧
  ¬ (∃ e h1, flagged_run = (Raise e, h1) ∧ PPOCatalog.key_lookup_error e = true) ∧
  ¬ (∃ e h1, multi_run = (Raise e, h1) ∧ PPOCatalog.key_lookup_error e = true).
Proof.
  cbv zeta. split; [|repeat split; try reflexivity].
  - intros k Hk. unfold PPOCatalog.subscripted_keys in Hk.
    repeat (apply elem_of_cons in Hk as [->|Hk]); [by split..|].
    by apply elem_of_nil in Hk.
  - intros (e & h1 & Hrun & He).
    apply (f_equal fst) in Hrun. cbn [fst] in Hrun.
    change (Raise (AssertionError (VStr PPOCatalog.free_log_std_msg))
            = Raise (A := PPOCatalog.t) e) in Hrun.
    injection Hrun as <-. discriminate He.
  - intros (e & h1 & Hrun & He).
    apply (f_equal fst) in Hrun. cbn [fst] in Hrun.
    change (Raise (AssertionError (VTuple [VStr PPOCatalog.action_space_msg]))
            = Raise (A := PPOCatalog.t) e) in Hrun.
    injection Hrun as <-. discriminate He.
Qed.

(** ** The outcome of the constructor, check by check *)

Section Outcome.

Local Arguments bind : simpl never.
Local Arguments alloc : simpl never.
Local Arguments get_output_dim : simpl never.
Local Arguments set_input_dim : simpl never.
Local Arguments set_output_dim : simpl never.

Variable Catalog_init :
  gym.Space → gym.Space → gmap string value →
  result (gmap string value * EncoderConfig.t).

Abbreviation init := (PPOCatalog.__init__ Catalog_init).

(** Runs the constructor up to the check that raises. *)
Ltac failing_path HC Hf :=
  unfold PPOCatalog.__init__, PPOCatalog.super__init__;
  unfold bind at 1 2 3; unfold lift at 1; rewrite HC;
  unfold alloc at 1; cbn [ret fst snd];
  unfold dict_getitem; cbn [Catalog.model_config_dict Catalog.encoder_config];
  rewrite Hf;
  repeat match goal with
         | H : _ !! _ = _ |- _ => rewrite H
         end;
  repeat (unfold bind at 1; cbn);
  unfold alloc; by rewrite <- ?app_assoc.

(** Once the superclass constructor has returned, the first check that fails
    decides the exception, and the store holds what was created up to
    there. *)
Lemma init_cases obs act cfg h0 stored enc :
  Catalog_init obs act cfg = Ok (stored, enc) →
  init obs act cfg h0 =
  let h1 := h0 ++ [OEncoderConfig enc] in
  if truthy (dict_get cfg "free_log_std")
  then (Raise (AssertionError (VStr PPOCatalog.free_log_std_msg)), h1)
  else
    match obs with
    | gym.Box [d] =>
        if gym.isinstance_Discrete act || gym.isinstance_Box act then
          match stored !! "vf_share_layers" with
          | None => (Raise (KeyError "vf_share_layers"), h1)
          | Some shared =>
              let h2 :=
                h0 ++ [OEncoderConfig enc;
                       OActorCriticEncoderConfig
                         {| ActorCriticEncoderConfig.base_encoder_config := length h0;
                            ActorCriticEncoderConfig.shared := shared |}] in
              match PPOCatalog.resolved_pi_output_dim act with
              | None => (Raise (IndexError "tuple index out of range"), h2)
              | Some pout =>
                  match stored !! "post_fcnet_hiddens" with
                  | None => (Raise (KeyError "post_fcnet_hiddens"), h2)
                  | Some hid =>
                      match stored !! "post_fcnet_activation" with
                      | None => (Raise (KeyError "post_fcnet_activation"), h2)
                      | Some actv =>
                          let r := PPOCatalog.construct_single_pass
                                     d pout 1 obs act stored enc shared hid actv h0 in
                          (Ok r.1, r.2)
                      end
                  end
              end
          end
        else (Raise (AssertionError (VTuple [VStr PPOCatalog.action_space_msg])), h1)
    | gym.Box _ => (Raise (AssertionError (VStr PPOCatalog.obs_1d_msg)), h1)
    | _ => (Raise (AssertionError (VStr PPOCatalog.box_obs_msg)), h1)
    end.
Proof.
  intros HC. cbv zeta.
  destruct (truthy (dict_get cfg "free_log_std")) eqn:Hf; [failing_path HC Hf|].
  destruct obs as [[|d [|d' sh']]|?|?|?|?]; try failing_path HC Hf.
  destruct act as [[|? ?]|?|?|?|?];
    cbn [gym.isinstance_Discrete gym.isinstance_Box orb
         PPOCatalog.resolved_pi_output_dim];
    try failing_path HC Hf.
  all: destruct (stored !! "vf_share_layers") as [shared|] eqn:Hs;
    [|failing_path HC Hf]; try failing_path HC Hf.
  all: destruct (stored !! "post_fcnet_hiddens") as [hid|] eqn:Hh;
    [|failing_path HC Hf].
  all: destruct (stored !! "post_fcnet_activation") as [actv|] eqn:Ha;
    [|failing_path HC Hf].
  all: by erewrite init_run.
Qed.

End Outcome.

(** ** Further properties of the constructor *)

Section Further.

Variable Catalog_init :
  gym.Space → gym.Space → gmap string value →
  result (gmap string value * EncoderConfig.t).

Abbreviation init := (PPOCatalog.__init__ Catalog_init).

Ltac invert_init H :=
  apply init_inv in H as
    (stored & enc & dim & pout & shared & hid & actv &
     HC & Hf & Hobs & Hpi & Hs & Hh & Ha & Hr);
  pose proof (f_equal fst Hr) as Hself;
  pose proof (f_equal snd Hr) as Hheap;
  cbn [fst snd] in Hself, Hheap.

Ltac unfold_messages H :=
  unfold PPOCatalog.free_log_std_msg, PPOCatalog.box_obs_msg,
    PPOCatalog.obs_1d_msg, PPOCatalog.action_space_msg in H.

(** X1: a [Box] action space with the empty shape [()] passes the
    action-space assertion, and construction then fails with [IndexError] at
    [action_space.shape[0]] (line 72): after the actor-critic encoder config
    has been created, before the [post_fcnet_*] keys are read, and with an
    exception that is neither a descriptive error nor a key-lookup error. *)
Theorem empty_shape_action_raises_IndexError obs cfg h0 stored enc d shared :
  Catalog_init obs (gym.Box []) cfg = Ok (stored, enc) →
  absent_or_falsy cfg "free_log_std" →
  obs = gym.Box [d] →
  stored !! "vf_share_layers" = Some shared →
  init obs (gym.Box []) cfg h0 =
    (Raise (IndexError "tuple index out of range"),
     h0 ++ [OEncoderConfig enc;
            OActorCriticEncoderConfig
              {| ActorCriticEncoderConfig.base_encoder_config := length h0;
                 ActorCriticEncoderConfig.shared := shared |}]) ∧
  PPOCatalog.unsupported_space_error (IndexError "tuple index out of range") = false ∧
  PPOCatalog.key_lookup_error (IndexError "tuple index out of range") = false.
Proof.
  intros HC Hf%absent_or_falsy_get -> Hs.
  rewrite (init_cases _ _ _ _ _ _ _ HC), Hf, Hs. done.
Qed.

(** X2: after construction the two heads differ in their output dimension
    only: both take the encoder config's [output_dim] as input dimension,
    both carry the entries ["post_fcnet_hiddens"] and
    ["post_fcnet_activation"] of [self.model_config_dict], and both have the
    output activation ["linear"]. *)
Theorem heads_share_settings obs act cfg h0 self h1 :
  init obs act cfg h0 = (Ok self, h1) →
  ∃ enc pi vf,
    PPOCatalog.encoder_config_of self h1 = Some enc ∧
    PPOCatalog.pi_head_config_of self h1 = Some pi ∧
    PPOCatalog.vf_head_config_of self h1 = Some vf ∧
    MLPHeadConfig.input_dim pi = EncoderConfig.output_dim enc ∧
    MLPHeadConfig.input_dim vf = EncoderConfig.output_dim enc ∧
    PPOCatalog.model_config_dict self !! "post_fcnet_hiddens" =
      Some (MLPHeadConfig.hidden_layer_dims pi) ∧
    PPOCatalog.model_config_dict self !! "post_fcnet_activation" =
      Some (MLPHeadConfig.hidden_layer_activation pi) ∧
    MLPHeadConfig.output_activation pi = VStr "linear" ∧
    vf = MLPHeadConfig.with_output_dim (VInt 1) pi.
Proof.
  intros H. invert_init H. subst self h1.
  eexists _, _, _.
  split; [apply single_pass_encoder|].
  split; [apply single_pass_pi_head|].
  split; [apply single_pass_vf_head|].
  done.
Qed.

(** X3: the write to [self.encoder_config.input_dim] (line 94) is seen
    through the actor-critic encoder config, although that wrapper was
    created before it (lines 64-67): its base encoder config, read from the
    final store, is the catalog's encoder config and has input dimension
    [d]. *)
Theorem patch_visible_through_wrapper d act cfg h0 self h1 :
  init (gym.Box [d]) act cfg h0 = (Ok self, h1) →
  ∃ enc, base_encoder_config_of self h1 = Some enc ∧
    PPOCatalog.encoder_config_of self h1 = Some enc ∧
    EncoderConfig.input_dim enc = VInt d.
Proof.
  intros H. invert_init H. injection Hobs as <-.
  pose proof (single_pass_encoder d pout 1 (gym.Box [d]) act stored enc
                shared hid actv h0) as He.
  pose proof (single_pass_actor_critic d pout 1 (gym.Box [d]) act stored enc
                shared hid actv h0) as Hac.
  rewrite <- Hself, <- Hheap in He, Hac.
  eexists. split; [|split; [exact He|done]].
  unfold base_encoder_config_of. rewrite Hac.
  cbn [ActorCriticEncoderConfig.base_encoder_config].
  unfold PPOCatalog.encoder_config_of in He.
  by destruct (h1 !! PPOCatalog.encoder_config self) as [[]|].
Qed.

(** X4: of the generic encoder config the superclass produced, construction
    changes the input dimension and nothing else; whatever input dimension
    the superclass had set is overwritten. *)
Theorem only_input_dim_of_encoder_changes obs act cfg h0 self h1 :
  init obs act cfg h0 = (Ok self, h1) →
  ∃ stored generic d after,
    Catalog_init obs act cfg = Ok (stored, generic) ∧
    obs = gym.Box [d] ∧
    PPOCatalog.encoder_config_of self h1 = Some after ∧
    EncoderConfig.input_dim after = VInt d ∧
    EncoderConfig.output_dim after = EncoderConfig.output_dim generic ∧
    EncoderConfig.other after = EncoderConfig.other generic.
Proof.
  intros H. invert_init H. subst self h1.
  eexists stored, enc, dim, _.
  repeat (split; [done|]).
  split; [apply single_pass_encoder|]. done.
Qed.

(** X5: whether it returns or raises, the constructor only adds objects to
    the store: every object that existed before the call is left as it was,
    and at most four objects are created. *)
Theorem constructor_only_allocates obs act cfg h0 :
  ∃ new, (PPOCatalog.__init__ Catalog_init obs act cfg h0).2 = h0 ++ new ∧
    (length new ≤ 4)%nat ∧
    ∀ l, (l < length h0)%nat →
         (PPOCatalog.__init__ Catalog_init obs act cfg h0).2 !! l = h0 !! l.
Proof.
  assert (∃ new, (init obs act cfg h0).2 = h0 ++ new ∧ (length new ≤ 4)%nat)
    as (new & Hnew & Hlen).
  { destruct (Catalog_init obs act cfg) as [[stored enc]|e] eqn:HC.
    - rewrite (init_cases _ _ _ _ _ _ _ HC). cbv zeta.
      unfold PPOCatalog.construct_single_pass.
      repeat case_match; cbn [fst snd]; eexists; (split; [reflexivity|]);
        cbn [length]; lia.
    - exists []. split; [|cbn; lia].
      unfold PPOCatalog.__init__, PPOCatalog.super__init__.
      unfold bind at 1 2. unfold lift. rewrite HC. cbn. by rewrite app_nil_r. }
  exists new. split; [done|]. split; [done|].
  intros l Hl. rewrite Hnew. by apply lookup_before.
Qed.

(** X6: with [free_log_std] absent or falsy, the assertions answer in the
    order of lines 51-61 and each with its own message: an observation space
    that is not a [Box] gets the Box message, a [Box] whose rank is not 1
    the 1-D message, both whatever the action space is; an unsupported
    action space is reported only for a supported observation space, and its
    message is a one-element tuple. *)
Theorem validation_messages obs act cfg h0 stored enc :
  Catalog_init obs act cfg = Ok (stored, enc) →
  absent_or_falsy cfg "free_log_std" →
  (gym.isinstance_Box obs = false →
   init obs act cfg h0 =
     (Raise (AssertionError (VStr PPOCatalog.box_obs_msg)),
      h0 ++ [OEncoderConfig enc])) ∧
  (∀ sh, obs = gym.Box sh → length sh ≠ 1%nat →
   init obs act cfg h0 =
     (Raise (AssertionError (VStr PPOCatalog.obs_1d_msg)),
      h0 ++ [OEncoderConfig enc])) ∧
  (∀ d, obs = gym.Box [d] →
   gym.isinstance_Discrete act || gym.isinstance_Box act = false →
   init obs act cfg h0 =
     (Raise (AssertionError (VTuple [VStr PPOCatalog.action_space_msg])),
      h0 ++ [OEncoderConfig enc])).
Proof.
  intros HC Hf%absent_or_falsy_get.
  rewrite (init_cases _ _ _ _ _ _ _ HC), Hf. cbv zeta.
  split; [|split].
  - by destruct obs.
  - intros sh -> Hsh. by destruct sh as [|? [|? ?]].
  - by intros d -> ->.
Qed.

(** X7: on inputs that pass the assertions, the subscript lookups fail in
    reading order.  A missing ["vf_share_layers"] is reported first, before
    any config object besides the encoder's exists and even when the action
    space has the empty shape; a missing ["post_fcnet_hiddens"] is reported
    before a missing ["post_fcnet_activation"], and both only after the
    actor-critic encoder config has been created. *)
Theorem key_errors_in_reading_order obs act cfg h0 stored enc d :
  Catalog_init obs act cfg = Ok (stored, enc) →
  absent_or_falsy cfg "free_log_std" →
  obs = gym.Box [d] →
  gym.isinstance_Discrete act || gym.isinstance_Box act = true →
  (stored !! "vf_share_layers" = None →
   init obs act cfg h0 =
     (Raise (KeyError "vf_share_layers"), h0 ++ [OEncoderConfig enc])) ∧
  (∀ shared pout,
     stored !! "vf_share_layers" = Some shared →
     PPOCatalog.resolved_pi_output_dim act = Some pout →
     let h2 :=
       h0 ++ [OEncoderConfig enc;
              OActorCriticEncoderConfig
                {| ActorCriticEncoderConfig.base_encoder_config := length h0;
                   ActorCriticEncoderConfig.shared := shared |}] in
     (stored !! "post_fcnet_hiddens" = None →
      init obs act cfg h0 = (Raise (KeyError "post_fcnet_hiddens"), h2)) ∧
     (is_Some (stored !! "post_fcnet_hiddens") →
      stored !! "post_fcnet_activation" = None →
      init obs act cfg h0 = (Raise (KeyError "post_fcnet_activation"), h2))).
Proof.
  intros HC Hf%absent_or_falsy_get -> Hact.
  rewrite (init_cases _ _ _ _ _ _ _ HC), Hf, Hact. cbv zeta.
  split.
  - by intros ->.
  - intros shared pout -> ->. split.
    + by intros ->.
    + by intros [hid ->] ->.
Qed.

(** X8: once the superclass constructor has returned, construction fails
    with the unsupported-feature error exactly when the [free_log_std] entry
    of the dictionary passed to the constructor is truthy.  The flag is read
    from the argument (line 48): what the superclass stores in
    [self.model_config_dict] plays no part. *)
Theorem free_log_std_error_iff obs act cfg h0 stored enc :
  Catalog_init obs act cfg = Ok (stored, enc) →
  (init obs act cfg h0).1 = Raise (AssertionError (VStr PPOCatalog.free_log_std_msg))
  ↔ truthy (dict_get cfg "free_log_std") = true.
Proof.
  intros HC. rewrite (init_cases _ _ _ _ _ _ _ HC). cbv zeta.
  destruct (truthy (dict_get cfg "free_log_std")); [done|].
  split; [|done]. intros H. exfalso.
  repeat case_match; cbn [fst] in H; unfold_messages H; discriminate H.
Qed.

(** X9: once the superclass constructor has returned, an unsupported-space
    error is raised only for an unsupported space: the observation space is
    then not a 1-D [Box], or the action space is neither [Discrete] nor
    [Box]. *)
Theorem unsupported_space_error_only_for_bad_spaces obs act cfg h0 stored enc e :
  Catalog_init obs act cfg = Ok (stored, enc) →
  (init obs act cfg h0).1 = Raise e →
  PPOCatalog.unsupported_space_error e = true →
  (∀ d, obs ≠ gym.Box [d]) ∨
  gym.isinstance_Discrete act || gym.isinstance_Box act = false.
Proof.
  intros HC. rewrite (init_cases _ _ _ _ _ _ _ HC). cbv zeta.
  intros H He.
  destruct (truthy (dict_get cfg "free_log_std")).
  { cbn [fst] in H. injection H as <-. discriminate He. }
  destruct obs as [[|d [|d' sh']]| | | |]; try (by left).
  destruct (gym.isinstance_Discrete act || gym.isinstance_Box act);
    [|by right].
  exfalso. repeat case_match; cbn [fst] in H; simplify_eq; discriminate He.
Qed.

(** X10: the four config objects of a constructed catalog are four
    different objects, none of which existed before the call; in particular
    the two heads are not one shared object. *)
Theorem config_objects_fresh_and_distinct obs act cfg h0 self h1 :
  PPOCatalog.__init__ Catalog_init obs act cfg h0 = (Ok self, h1) →
  let locations :=
    [PPOCatalog.encoder_config self;
     PPOCatalog.actor_critic_encoder_config self;
     PPOCatalog.pi_head_config self;
     PPOCatalog.vf_head_config self] in
  NoDup locations ∧
  (∀ l, l ∈ locations → (length h0 ≤ l < length h1)%nat) ∧
  length h1 = (length h0 + 4)%nat.
Proof.
  intros H. invert_init H. subst self h1. cbv zeta.
  rewrite single_pass_length. cbn.
  split; [|split; [|done]].
  - repeat (apply NoDup_cons; split; [rewrite ?elem_of_cons, ?elem_of_nil; lia|]).
    apply NoDup_nil_2.
  - intros l Hl.
    repeat (apply elem_of_cons in Hl as [->|Hl]); try lia.
    by apply elem_of_nil in Hl.
Qed.

End Further.

Section TwoDictionaries.

Variables Catalog_init1 Catalog_init2 :
  gym.Space → gym.Space → gmap string value →
  result (gmap string value * EncoderConfig.t).

(** X11: the constructor looks at the dictionaries through four entries
    only: the truthiness of the argument's ["free_log_std"] and the stored
    ["vf_share_layers"], ["post_fcnet_hiddens"] and
    ["post_fcnet_activation"].  Two constructions that agree on these (and
    on the spaces and the generic encoder config) leave the same store and
    end alike: with the same exception, or with catalogs holding the same
    config objects. *)
Theorem only_four_entries_matter obs act cfg1 cfg2 h0 stored1 stored2 enc :
  Catalog_init1 obs act cfg1 = Ok (stored1, enc) →
  Catalog_init2 obs act cfg2 = Ok (stored2, enc) →
  truthy (dict_get cfg1 "free_log_std") = truthy (dict_get cfg2 "free_log_std") →
  (∀ k, k ∈ PPOCatalog.subscripted_keys → stored1 !! k = stored2 !! k) →
  let run1 := PPOCatalog.__init__ Catalog_init1 obs act cfg1 h0 in
  let run2 := PPOCatalog.__init__ Catalog_init2 obs act cfg2 h0 in
  run1.2 = run2.2 ∧
  match run1.1, run2.1 with
  | Ok self1, Ok self2 =>
      PPOCatalog.encoder_config self1 = PPOCatalog.encoder_config self2 ∧
      PPOCatalog.actor_critic_encoder_config self1 =
        PPOCatalog.actor_critic_encoder_config self2 ∧
      PPOCatalog.pi_head_config self1 = PPOCatalog.pi_head_config self2 ∧
      PPOCatalog.vf_head_config self1 = PPOCatalog.vf_head_config self2
  | Raise e1, Raise e2 => e1 = e2
  | _, _ => False
  end.
Proof.
  intros HC1 HC2 Hf Hkeys. cbv zeta.
  rewrite (init_cases _ _ _ _ _ _ _ HC1), (init_cases _ _ _ _ _ _ _ HC2).
  cbv zeta. rewrite Hf.
  unfold PPOCatalog.subscripted_keys in Hkeys.
  rewrite (Hkeys "vf_share_layers"), (Hkeys "post_fcnet_hiddens"),
    (Hkeys "post_fcnet_activation") by (rewrite !elem_of_cons; auto).
  unfold PPOCatalog.construct_single_pass.
  repeat case_match; simplify_eq; cbn [fst snd] in *; by simplify_eq.
Qed.

End TwoDictionaries.

(** ** The further properties at the scenarios *)

Lemma empty_shape_action_raises_IndexError_witness :
  absent_or_falsy (Scenario.config true) "free_log_std" ∧
  Scenario.config true !! "vf_share_layers" = Some (VBool true) ∧
  (PPOCatalog.__init__ Scenario.Catalog_init (gym.Box [4]) (gym.Box [])
     (Scenario.config true) []).1 = Raise (IndexError "tuple index out of range").
Proof.
  split; [by vm_compute|]. split; [reflexivity|].
  destruct (empty_shape_action_raises_IndexError Scenario.Catalog_init
              (gym.Box [4]) (Scenario.config true) []
              (Scenario.config true) (EncoderConfig.mk VNone (VInt 256) [])
              4 (VBool true)) as [Hrun _].
  - reflexivity.
  - by vm_compute.
  - reflexivity.
  - reflexivity.
  - by rewrite Hrun.
Defined.

Lemma heads_share_settings_witness :
  Scenario.box_run = (Ok Scenario.box_self, Scenario.box_heap) ∧
  ∃ enc pi vf,
    PPOCatalog.encoder_config_of Scenario.box_self Scenario.box_heap = Some enc ∧
    PPOCatalog.pi_head_config_of Scenario.box_self Scenario.box_heap = Some pi ∧
    PPOCatalog.vf_head_config_of Scenario.box_self Scenario.box_heap = Some vf ∧
    MLPHeadConfig.input_dim pi = EncoderConfig.output_dim enc ∧
    MLPHeadConfig.input_dim vf = EncoderConfig.output_dim enc ∧
    PPOCatalog.model_config_dict Scenario.box_self !! "post_fcnet_hiddens" =
      Some (MLPHeadConfig.hidden_layer_dims pi) ∧
    PPOCatalog.model_config_dict Scenario.box_self !! "post_fcnet_activation" =
      Some (MLPHeadConfig.hidden_layer_activation pi) ∧
    MLPHeadConfig.output_activation pi = VStr "linear" ∧
    vf = MLPHeadConfig.with_output_dim (VInt 1) pi.
Proof.
  split; [reflexivity|].
  apply (heads_share_settings Scenario.Catalog_init
           (gym.Box [8]) (gym.Box [2]) (Scenario.config false) []).
  reflexivity.
Defined.

Lemma patch_visible_through_wrapper_witness :
  Scenario.discrete_run = (Ok Scenario.discrete_self, Scenario.discrete_heap) ∧
  ∃ enc, base_encoder_config_of Scenario.discrete_self Scenario.discrete_heap
           = Some enc ∧
    PPOCatalog.encoder_config_of Scenario.discrete_self Scenario.discrete_heap
      = Some enc ∧
    EncoderConfig.input_dim enc = VInt 4.
Proof.
  split; [reflexivity|].
  apply (patch_visible_through_wrapper Scenario.Catalog_init
           4 (gym.Discrete 3) (Scenario.config true) []).
  reflexivity.
Defined.

Lemma only_input_dim_of_encoder_changes_witness :
  Scenario.discrete_run = (Ok Scenario.discrete_self, Scenario.discrete_heap) ∧
  ∃ stored generic d after,
    Scenario.Catalog_init (gym.Box [4]) (gym.Discrete 3) (Scenario.config true)
      = Ok (stored, generic) ∧
    gym.Box [4] = gym.Box [d] ∧
    PPOCatalog.encoder_config_of Scenario.discrete_self Scenario.discrete_heap
      = Some after ∧
    EncoderConfig.input_dim after = VInt d ∧
    EncoderConfig.output_dim after = EncoderConfig.output_dim generic ∧
    EncoderConfig.other after = EncoderConfig.other generic.
Proof.
  split; [reflexivity|].
  apply (only_input_dim_of_encoder_changes Scenario.Catalog_init
           (gym.Box [4]) (gym.Discrete 3) (Scenario.config true) []).
  reflexivity.
Defined.

Lemma validation_messages_witness :
  absent_or_falsy (Scenario.config true) "free_log_std" ∧
  PPOCatalog.__init__ Scenario.Catalog_init (gym.Discrete 5)
    (gym.MultiDiscrete [2; 3]) (Scenario.config true) [] =
    (Raise (AssertionError (VStr PPOCatalog.box_obs_msg)),
     [OEncoderConfig (EncoderConfig.mk VNone (VInt 256) [])]).
Proof.
  split; [by vm_compute|].
  apply (validation_messages Scenario.Catalog_init (gym.Discrete 5)
           (gym.MultiDiscrete [2; 3]) (Scenario.config true) []
           (Scenario.config true) (EncoderConfig.mk VNone (VInt 256) [])).
  - reflexivity.
  - by vm_compute.
  - reflexivity.
Defined.

Lemma key_errors_in_reading_order_witness :
  absent_or_falsy (∅ : gmap string value) "free_log_std" ∧
  gym.isinstance_Discrete (gym.Box []) || gym.isinstance_Box (gym.Box []) = true ∧
  (∅ : gmap string value) !! "vf_share_layers" = None ∧
  PPOCatalog.__init__ Scenario.Catalog_init (gym.Box [4]) (gym.Box []) ∅ [] =
    (Raise (KeyError "vf_share_layers"),
     [OEncoderConfig (EncoderConfig.mk VNone (VInt 256) [])]).
Proof.
  split; [by vm_compute|]. split; [reflexivity|]. split; [reflexivity|].
  apply (key_errors_in_reading_order Scenario.Catalog_init (gym.Box [4])
           (gym.Box []) ∅ [] ∅ (EncoderConfig.mk VNone (VInt 256) []) 4).
  - reflexivity.
  - by vm_compute.
  - reflexivity.
  - reflexivity.
  - reflexivity.
Defined.

Lemma free_log_std_error_iff_witness :
  (PPOCatalog.__init__ Scenario.Catalog_init (gym.Box [4]) (gym.Discrete 3)
     Scenario.config_free_log_std []).1 =
    Raise (AssertionError (VStr PPOCatalog.free_log_std_msg)) ∧
  truthy (dict_get Scenario.config_free_log_std "free_log_std") = true.
Proof.
  split; [reflexivity|].
  apply (free_log_std_error_iff Scenario.Catalog_init (gym.Box [4])
           (gym.Discrete 3) Scenario.config_free_log_std []
           Scenario.config_free_log_std (EncoderConfig.mk VNone (VInt 256) [])).
  - reflexivity.
  - reflexivity.
Defined.

Lemma unsupported_space_error_only_for_bad_spaces_witness :
  PPOCatalog.unsupported_space_error
    (AssertionError (VStr PPOCatalog.obs_1d_msg)) = true ∧
  ((∀ d, gym.Box [84; 84] ≠ gym.Box [d]) ∨
   gym.isinstance_Discrete (gym.Discrete 3) || gym.isinstance_Box (gym.Discrete 3)
     = false).
Proof.
  split; [reflexivity|].
  apply (unsupported_space_error_only_for_bad_spaces Scenario.Catalog_init
           (gym.Box [84; 84]) (gym.Discrete 3) (Scenario.config true) []
           (Scenario.config true) (EncoderConfig.mk VNone (VInt 256) [])
           (AssertionError (VStr PPOCatalog.obs_1d_msg))).
  - reflexivity.
  - reflexivity.
  - reflexivity.
Defined.

Lemma config_objects_fresh_and_distinct_witness :
  Scenario.discrete_run = (Ok Scenario.discrete_self, Scenario.discrete_heap) ∧
  NoDup [0; 1; 2; 3]%nat ∧
  length Scenario.discrete_heap = 4%nat.
Proof.
  split; [reflexivity|].
  destruct (config_objects_fresh_and_distinct Scenario.Catalog_init
              (gym.Box [4]) (gym.Discrete 3) (Scenario.config true) []
              Scenario.discrete_self Scenario.discrete_heap)
    as (Hnodup & _ & Hlen); [reflexivity|].
  split; [exact Hnodup|exact Hlen].
Defined.

Lemma only_four_entries_matter_witness :
  truthy (dict_get (Scenario.config true) "free_log_std") =
    truthy (dict_get Scenario.config_with_extras "free_log_std") ∧
  (∀ k, k ∈ PPOCatalog.subscripted_keys →
        Scenario.config true !! k = Scenario.config_with_extras !! k) ∧
  (PPOCatalog.__init__ Scenario.Catalog_init (gym.Box [4]) (gym.Discrete 3)
     (Scenario.config true) []).2 =
  (PPOCatalog.__init__ Scenario.Catalog_init (gym.Box [4]) (gym.Discrete 3)
     Scenario.config_with_extras []).2.
Proof.
  assert (Hkeys : ∀ k, k ∈ PPOCatalog.subscripted_keys →
                       Scenario.config true !! k = Scenario.config_with_extras !! k).
  { intros k Hk. unfold PPOCatalog.subscripted_keys in Hk.
    repeat (apply elem_of_cons in Hk as [->|Hk]); [reflexivity..|].
    by apply elem_of_nil in Hk. }
  split; [reflexivity|]. split; [exact Hkeys|].
  apply (only_four_entries_matter Scenario.Catalog_init Scenario.Catalog_init
           (gym.Box [4]) (gym.Discrete 3)
           (Scenario.config true) Scenario.config_with_extras []
           (Scenario.config true) Scenario.config_with_extras
           (EncoderConfig.mk VNone (VInt 256) [])).
  - reflexivity.
  - reflexivity.
  - reflexivity.
  - exact Hkeys.
Defined.
